(** * The node and wallet facades of [interfaces/node.cpp] and
      [interfaces/wallet.cpp]

    A shallow embedding of [NodeImpl], [WalletImpl], [MakeWallet] and the
    [CHECK_WALLET] macro.  The facade methods are thin: they read globals of
    the node ([g_connman], [pindexBestHeader], [chainActive], ...), call entry
    points of other translation units ([StartShutdown], [StartMapPort], ...)
    and connect callbacks to the signals of [uiInterface].  The embedding
    therefore has three layers:

    - [Collaborators]: the declarations the two files include but do not
      define (block index, chain, connection manager, ...), taken as
      parameters;
    - [Env] and [World]: the state a callback, respectively a facade method,
      can read and write, threaded explicitly;
    - the methods themselves, written in a small state-and-exception monad
      [M] in the order the C++ statements are written.

    A method body is run from start to end without another thread in between,
    so the scoped [LOCK(::cs_main)] of the chain queries has no counterpart
    here. *)

From Stdlib Require Import ZArith String List.
From Stdlib Require Import Floats.SpecFloat.
From stdpp Require Import base decidable option list.

Local Open Scope Z_scope.

(** ** Channels *)

(** [CWallet &] and [CWallet *]: the identity of a wallet owned by the wallet
    subsystem.  The facade never owns or copies a wallet. *)
Definition CWalletRef := nat.

(** One constructor per signal a facade method connects to: the members of
    [::uiInterface] named in [node.cpp], and the [ShowProgress] member of each
    wallet named in [wallet.cpp]. *)
Inductive Channel : Type :=
  | InitMessage
  | ThreadSafeMessageBox
  | ThreadSafeQuestion
  | ShowProgress
  | LoadWallet
  | NotifyNumConnectionsChanged
  | NotifyNetworkActiveChanged
  | NotifyAlertChanged
  | BannedListChanged
  | NotifyBlockTip
  | NotifyHeaderTip
  | Wallet_ShowProgress (wallet : CWalletRef).

#[global] Instance Channel_eq_dec : EqDecision Channel.
Proof. solve_decision. Defined.

(** ** Declarations the sources include but do not define *)

Class Collaborators : Type := {
  (** [chain.h]: [CBlockIndex::nHeight], [CBlockIndex::GetBlockTime()],
      [CChain::Tip()] (null for a chain without tip), [CChain::Height()]. *)
  CBlockIndex : Type;
  nHeight : CBlockIndex -> Z;
  GetBlockTime : CBlockIndex -> Z;
  CChain : Type;
  Tip : CChain -> option CBlockIndex;
  Height : CChain -> Z;
  (** [chainparams.h], [primitives/block.h]. *)
  CBlock : Type;
  CBlock_GetBlockTime : CBlock -> Z;
  ChainTxData : Type;
  CChainParams : Type;
  GenesisBlock : CChainParams -> CBlock;
  TxData : CChainParams -> ChainTxData;
  (** [validation.h]: the progress estimate is a C++ [double]; the facade only
      passes it on, so its representation is left open. *)
  double : Type;
  GuessVerificationProgress : ChainTxData -> option CBlockIndex -> double;
  (** [net.h]. *)
  CConnman : Type;
  NumConnections : Type;
  GetNodeCount : CConnman -> NumConnections -> Z;
  GetTotalBytesRecv : CConnman -> Z;
  GetTotalBytesSent : CConnman -> Z;
  GetNetworkActive : CConnman -> bool;
  (** [txmempool.h]. *)
  CTxMemPool : Type;
  mempool_size : CTxMemPool -> Z;
  DynamicMemoryUsage : CTxMemPool -> Z;
  (** [interfaces/node.h], [ui_interface.h]: the argument tuple of the
      callbacks that are connected to their signal as they are. *)
  FnArgs : Channel -> Type;
  (** The state of the external consumer, which is all a callback it supplied
      can change. *)
  External : Type
}.

(** ** Outcomes *)

(** Exceptions; [node.cpp] throws only [std::logic_error]. *)
Inductive exception : Type := logic_error (what : string).

Inductive Outcome (A : Type) : Type :=
  | Ret (a : A)
  | Throw (e : exception).
Arguments Ret {A} _.
Arguments Throw {A} _.

Section Model.
Context `{Collaborators}.

(** ** What a running callback sees *)

(** [class WalletImpl]: its only member is the reference [m_wallet]. *)
Record WalletImpl : Type := mkWalletImpl { m_wallet : CWalletRef }.

(** [class NodeImpl] declares no data member. *)
Inductive NodeImpl : Type := mkNodeImpl.

(** [std::unique_ptr<Wallet>]: the position of the facade object in the
    record of constructed facades. *)
Definition WalletPtr := nat.

(** [constructed] records every [WalletImpl] that [std::make_unique] has
    built, oldest first; [ext] is the external consumer's state. *)
Record Env : Type := mkEnv {
  constructed : list WalletImpl;
  ext : External
}.

(** Calling a [std::function] supplied by the external consumer. *)
Definition call {A : Type} (fn : A -> External -> External) (a : A)
    (env : Env) : Env :=
  {| constructed := constructed env; ext := fn a (ext env) |}.

(** [std::make_unique<WalletImpl>(wallet)]. *)
Definition make_unique_WalletImpl (wallet : CWalletRef) (env : Env)
  : WalletPtr * Env :=
  (length (constructed env),
   {| constructed := constructed env ++ [mkWalletImpl wallet];
      ext := ext env |}).

(** [std::unique_ptr<Wallet> MakeWallet(CWallet &wallet)]. *)
Definition MakeWallet (wallet : CWalletRef) (env : Env) : WalletPtr * Env :=
  make_unique_WalletImpl wallet env.

(** ** The globals of the node *)

(** The globals that [node.cpp] reads.  [Params_], [ShutdownRequested_] and
    [IsInitialBlockDownload_] stand for what the functions [Params()],
    [ShutdownRequested()] and [IsInitialBlockDownload()] return. *)
Record Globals : Type := mkGlobals {
  g_connman : option CConnman;
  g_mempool : CTxMemPool;
  pindexBestHeader : option CBlockIndex;
  chainActive : CChain;
  Params_ : CChainParams;
  fReindex : bool;
  fImporting : bool;
  ShutdownRequested_ : bool;
  IsInitialBlockDownload_ : bool
}.

(** ** Event channels *)

(** A slot stored in a signal with argument tuple [A].  It runs when the
    signal is raised, so it reads the globals as they are then. *)
Definition Slot (A : Type) : Type := Globals -> A -> Env -> Env.

(** Modelled from the spec: the Event Channel ([boost::signals2::signal], a
    member type of [CClientUIInterface] in [ui_interface.h]); the spec's
    "mapping from a unique, monotonically assigned registration identifier to a
    stored callback value".  The slots are kept in registration order, which is
    one of the orders the spec leaves open. *)
Record Signal (A : Type) : Type := mkSignal {
  slots : list (nat * Slot A);
  next_id : nat
}.
Arguments mkSignal {A} _ _.
Arguments slots {A} _.
Arguments next_id {A} _.

(** Modelled from the spec: [register(callback) -> registration_id], "always
    succeeds, assigns a fresh identifier, stores the callback". *)
Definition connect {A : Type} (s : Slot A) (sig : Signal A) : nat * Signal A :=
  (next_id sig,
   {| slots := slots sig ++ [(next_id sig, s)]; next_id := S (next_id sig) |}).

(** Modelled from the spec: [unregister(registration_id)], "removes the
    callback if present; ... idempotent". *)
Definition disconnect {A : Type} (id : nat) (sig : Signal A) : Signal A :=
  {| slots := List.filter (fun p => negb (Nat.eqb (fst p) id)) (slots sig);
     next_id := next_id sig |}.

(** Modelled from the spec: [emit(args...)], "invokes every
    currently-registered callback with the given arguments". *)
Definition run_slots {A : Type} (l : list (nat * Slot A)) (g : Globals)
    (a : A) (env : Env) : Env :=
  fold_left (fun e p => snd p g a e) l env.

Definition emit {A : Type} (sig : Signal A) (g : Globals) (a : A)
    (env : Env) : Env :=
  run_slots (slots sig) g a env.

(** The registration identifiers a signal currently holds. *)
Definition registered {A : Type} (sig : Signal A) : list nat :=
  map fst (slots sig).

(** Identifiers are unique and were all handed out already. *)
Definition wf_signal {A : Type} (sig : Signal A) : Prop :=
  NoDup (registered sig) /\
  Forall (fun id => (id < next_id sig)%nat) (registered sig).

(** The argument tuple of each signal.  For the two chain-tip signals and for
    [LoadWallet] it is read off the lambdas in [node.cpp]; the other signals
    take the callback as it is. *)
Definition SigArgs (c : Channel) : Type :=
  match c with
  | NotifyBlockTip | NotifyHeaderTip => (bool * CBlockIndex)%type
  | LoadWallet => CWalletRef
  | _ => FnArgs c
  end.

(** All signals of the process, by identity. *)
Definition Channels : Type := forall c : Channel, Signal (SigArgs c).

Definition set_channel (c : Channel) (sig : Signal (SigArgs c))
    (chs : Channels) : Channels :=
  fun c' =>
    match decide (c = c') with
    | left e => eq_rect c (fun x => Signal (SigArgs x)) sig c' e
    | right _ => chs c'
    end.

(** ** The state a facade method runs in *)

(** The entry points of other translation units that the control methods
    call.  What they do to the node is outside the two files; the model
    records that they were called, with which argument, in which order. *)
Inductive Call : Type :=
  | StartShutdown
  | StartMapPort
  | InterruptMapPort
  | StopMapPort
  | CConnman_SetNetworkActive (active : bool).

Record World : Type := mkWorld {
  globals : Globals;
  uiInterface : Channels;
  env : Env;
  calls : list Call
}.

(** A method body: it returns or throws, and leaves a world behind. *)
Definition M (A : Type) : Type := World -> Outcome A * World.

Definition ret {A : Type} (a : A) : M A := fun w => (Ret a, w).

Definition throw {A : Type} (e : exception) : M A := fun w => (Throw e, w).

Definition bind {A B : Type} (m : M A) (k : A -> M B) : M B :=
  fun w =>
    match m w with
    | (Ret a, w') => k a w'
    | (Throw e, w') => (Throw e, w')
    end.

Definition gets {A : Type} (f : Globals -> A) : M A :=
  fun w => (Ret (f (globals w)), w).

Definition invoke (c : Call) : M unit :=
  fun w => (Ret tt, {| globals := globals w; uiInterface := uiInterface w;
                       env := env w; calls := calls w ++ [c] |}).

Definition fmap_M {A B : Type} (f : A -> B) (m : M A) : M B :=
  bind m (fun a => ret (f a)).

Notation "x <- m ;; k" := (bind m (fun x => k))
  (at level 100, m at next level, right associativity, only parsing).
Notation "m ;;; k" := (bind m (fun _ => k))
  (at level 100, right associativity, only parsing).

(** [boost::signals2::connection]: which signal, which registration. *)
Definition connection : Type := (Channel * nat)%type.

(** [uiInterface.X.connect(slot)]. *)
Definition signal_connect (c : Channel) (s : Slot (SigArgs c)) : M connection :=
  fun w =>
    let r := connect s (uiInterface w c) in
    (Ret (c, fst r),
     {| globals := globals w;
        uiInterface := set_channel c (snd r) (uiInterface w);
        env := env w; calls := calls w |}).

(** [uiInterface.X(args...)], as the owning subsystem raises it. *)
Definition signal_emit (c : Channel) (a : SigArgs c) : M unit :=
  fun w =>
    (Ret tt,
     {| globals := globals w; uiInterface := uiInterface w;
        env := emit (uiInterface w c) (globals w) a (env w);
        calls := calls w |}).

(** ** Subscription handles *)

(** Modelled from the spec: the Subscription Handle ([interfaces::Handler],
    built by [MakeHandler] in [interfaces/handler.cpp]), which "holds a
    back-reference (registration identifier + Event Channel identity)" and is
    "marked disconnected" once it has disconnected. *)
Record Handler : Type := mkHandler {
  h_channel : Channel;
  h_id : nat;
  h_connected : bool
}.

(** Modelled from the spec: construction "binds to exactly one (channel,
    registration_id) pair". *)
Definition MakeHandler (conn : connection) : Handler :=
  {| h_channel := fst conn; h_id := snd conn; h_connected := true |}.

(** Modelled from the spec: disconnect "calls the bound channel's
    [unregister]; after this returns, the handle is marked disconnected;
    further disconnect calls are no-ops".  The handle is the caller's object,
    so its new state is returned. *)
Definition Handler_disconnect (h : Handler) : M Handler :=
  fun w =>
    if h_connected h then
      (Ret {| h_channel := h_channel h; h_id := h_id h;
              h_connected := false |},
       {| globals := globals w;
          uiInterface :=
            set_channel (h_channel h)
              (disconnect (h_id h) (uiInterface w (h_channel h)))
              (uiInterface w);
          env := env w; calls := calls w |})
    else (Ret h, w).

(** ** [interfaces/wallet.cpp] *)

(** The callback types of [interfaces/wallet.h] and [interfaces/node.h].  A
    callback acts on the external consumer's state; the [bool] that a
    message-box or question callback hands back to the signal is not
    represented. *)
Definition Fn (c : Channel) : Type := FnArgs c -> External -> External.
Definition NotifyBlockTipFn : Type :=
  bool -> Z -> Z -> double -> External -> External.
Definition NotifyHeaderTipFn : Type := NotifyBlockTipFn.
Definition LoadWalletFn : Type := WalletPtr -> External -> External.

(** [WalletImpl::handleShowProgress]. *)
Definition WalletImpl_handleShowProgress (this : WalletImpl)
    (fn : Fn (Wallet_ShowProgress (m_wallet this))) : M Handler :=
  fmap_M MakeHandler
    (signal_connect (Wallet_ShowProgress (m_wallet this))
       (fun _ => call fn)).

(** ** [interfaces/node.cpp] *)

(** [#define CHECK_WALLET(x)]: [x] in a build with [ENABLE_WALLET], a
    [throw] that drops [x] otherwise. *)
Definition CHECK_WALLET {A : Type} (ENABLE_WALLET : bool) (x : M A) : M A :=
  if ENABLE_WALLET then x
  else throw (logic_error "Wallet function called in non-wallet build."%string).

(** The methods of [NodeImpl] that only hand their arguments to argument
    parsing, logging and start-up code ([parseParameters] to [appShutdown],
    [helpMessage], [getProxy]) are not embedded. *)

Definition startShutdown : M unit := invoke StartShutdown.

Definition shutdownRequested : M bool := gets ShutdownRequested_.

Definition mapPort (use_upnp : bool) : M unit :=
  if use_upnp then invoke StartMapPort
  else (invoke InterruptMapPort ;;; invoke StopMapPort).

Definition getNodeCount (flags : NumConnections) : M Z :=
  gets (fun g =>
    match g_connman g with
    | Some connman => GetNodeCount connman flags
    | None => 0
    end).

Definition getTotalBytesRecv : M Z :=
  gets (fun g =>
    match g_connman g with
    | Some connman => GetTotalBytesRecv connman
    | None => 0
    end).

Definition getTotalBytesSent : M Z :=
  gets (fun g =>
    match g_connman g with
    | Some connman => GetTotalBytesSent connman
    | None => 0
    end).

Definition getMempoolSize : M Z := gets (fun g => mempool_size (g_mempool g)).

Definition getMempoolDynamicUsage : M Z :=
  gets (fun g => DynamicMemoryUsage (g_mempool g)).

(** [bool getHeaderTip(int &height, int64_t &block_time)].  The two reference
    parameters are passed in with the value the caller's variables hold and
    returned with the value they hold afterwards. *)
Definition getHeaderTip (height block_time : Z) : M (bool * Z * Z) :=
  best <- gets pindexBestHeader ;;
  match best with
  | Some header => ret (true, nHeight header, GetBlockTime header)
  | None => ret (false, height, block_time)
  end.

Definition getNumBlocks : M Z := gets (fun g => Height (chainActive g)).

Definition getLastBlockTime : M Z :=
  tip <- gets (fun g => Tip (chainActive g)) ;;
  match tip with
  | Some index => ret (GetBlockTime index)
  | None =>
      (* Genesis block's time of current network *)
      gets (fun g => CBlock_GetBlockTime (GenesisBlock (Params_ g)))
  end.

Definition getVerificationProgress : M double :=
  tip <- gets (fun g => Tip (chainActive g)) ;;
  gets (fun g => GuessVerificationProgress (TxData (Params_ g)) tip).

Definition isInitialBlockDownload : M bool := gets IsInitialBlockDownload_.

Definition getReindex : M bool := gets fReindex.

Definition getImporting : M bool := gets fImporting.

Definition setNetworkActive (active : bool) : M unit :=
  connman <- gets g_connman ;;
  match connman with
  | Some _ => invoke (CConnman_SetNetworkActive active)
  | None => ret tt
  end.

Definition getNetworkActive : M bool :=
  gets (fun g =>
    match g_connman g with
    | Some connman => GetNetworkActive connman
    | None => false
    end).

Definition handleInitMessage (fn : Fn InitMessage) : M Handler :=
  fmap_M MakeHandler (signal_connect InitMessage (fun _ => call fn)).

Definition handleMessageBox (fn : Fn ThreadSafeMessageBox) : M Handler :=
  fmap_M MakeHandler (signal_connect ThreadSafeMessageBox (fun _ => call fn)).

Definition handleQuestion (fn : Fn ThreadSafeQuestion) : M Handler :=
  fmap_M MakeHandler (signal_connect ThreadSafeQuestion (fun _ => call fn)).

Definition handleShowProgress (fn : Fn ShowProgress) : M Handler :=
  fmap_M MakeHandler (signal_connect ShowProgress (fun _ => call fn)).

(** The lambda connected by [handleLoadWallet]: it is given the wallet, calls
    [MakeWallet] on it and calls [fn] on the result. *)
Definition LoadWallet_slot (fn : LoadWalletFn) : Slot (SigArgs LoadWallet) :=
  fun _ wallet env =>
    let r := MakeWallet wallet env in
    call fn (fst r) (snd r).

Definition handleLoadWallet (ENABLE_WALLET : bool) (fn : LoadWalletFn)
  : M Handler :=
  CHECK_WALLET ENABLE_WALLET
    (fmap_M MakeHandler (signal_connect LoadWallet (LoadWallet_slot fn))).

Definition handleNotifyNumConnectionsChanged
    (fn : Fn NotifyNumConnectionsChanged) : M Handler :=
  fmap_M MakeHandler
    (signal_connect NotifyNumConnectionsChanged (fun _ => call fn)).

Definition handleNotifyNetworkActiveChanged
    (fn : Fn NotifyNetworkActiveChanged) : M Handler :=
  fmap_M MakeHandler
    (signal_connect NotifyNetworkActiveChanged (fun _ => call fn)).

Definition handleNotifyAlertChanged (fn : Fn NotifyAlertChanged) : M Handler :=
  fmap_M MakeHandler (signal_connect NotifyAlertChanged (fun _ => call fn)).

Definition handleBannedListChanged (fn : Fn BannedListChanged) : M Handler :=
  fmap_M MakeHandler (signal_connect BannedListChanged (fun _ => call fn)).

(** The lambda of [handleNotifyBlockTip] and [handleNotifyHeaderTip]:
    [[fn](bool initial_download, const CBlockIndex *block) {
       fn(initial_download, block->nHeight, block->GetBlockTime(),
          GuessVerificationProgress(::Params().TxData(), block)); }].
    [block] is dereferenced unchecked, so the signal carries a block index,
    not a nullable pointer. *)
Definition tip_slot (fn : NotifyBlockTipFn) : Slot (bool * CBlockIndex) :=
  fun g '(initial_download, block) env =>
    {| constructed := constructed env;
       ext := fn initial_download (nHeight block) (GetBlockTime block)
                (GuessVerificationProgress (TxData (Params_ g)) (Some block))
                (ext env) |}.

Definition handleNotifyBlockTip (fn : NotifyBlockTipFn) : M Handler :=
  fmap_M MakeHandler (signal_connect NotifyBlockTip (tip_slot fn)).

Definition handleNotifyHeaderTip (fn : NotifyHeaderTipFn) : M Handler :=
  fmap_M MakeHandler (signal_connect NotifyHeaderTip (tip_slot fn)).

(** [std::unique_ptr<Node> MakeNode()]. *)
Definition MakeNode : NodeImpl := mkNodeImpl.

(** ** The methods as data *)

(** The query methods of [NodeImpl], so that a statement can range over all
    of them. *)
Inductive Query : Type -> Type :=
  | Q_shutdownRequested : Query bool
  | Q_getNodeCount (flags : NumConnections) : Query Z
  | Q_getTotalBytesRecv : Query Z
  | Q_getTotalBytesSent : Query Z
  | Q_getMempoolSize : Query Z
  | Q_getMempoolDynamicUsage : Query Z
  | Q_getHeaderTip (height block_time : Z) : Query (bool * Z * Z)
  | Q_getNumBlocks : Query Z
  | Q_getLastBlockTime : Query Z
  | Q_getVerificationProgress : Query double
  | Q_isInitialBlockDownload : Query bool
  | Q_getReindex : Query bool
  | Q_getImporting : Query bool
  | Q_getNetworkActive : Query bool.

Definition ask {A : Type} (q : Query A) : M A :=
  match q in Query T return M T with
  | Q_shutdownRequested => shutdownRequested
  | Q_getNodeCount flags => getNodeCount flags
  | Q_getTotalBytesRecv => getTotalBytesRecv
  | Q_getTotalBytesSent => getTotalBytesSent
  | Q_getMempoolSize => getMempoolSize
  | Q_getMempoolDynamicUsage => getMempoolDynamicUsage
  | Q_getHeaderTip height block_time => getHeaderTip height block_time
  | Q_getNumBlocks => getNumBlocks
  | Q_getLastBlockTime => getLastBlockTime
  | Q_getVerificationProgress => getVerificationProgress
  | Q_isInitialBlockDownload => isInitialBlockDownload
  | Q_getReindex => getReindex
  | Q_getImporting => getImporting
  | Q_getNetworkActive => getNetworkActive
  end.

(** Every embedded operation of the two facades: the queries, the control
    methods, the subscription methods and the wallet facade's one method. *)
Inductive Method : Type -> Type :=
  | Node_query {A : Type} (q : Query A) : Method A
  | Node_startShutdown : Method unit
  | Node_mapPort (use_upnp : bool) : Method unit
  | Node_setNetworkActive (active : bool) : Method unit
  | Node_handleInitMessage (fn : Fn InitMessage) : Method Handler
  | Node_handleMessageBox (fn : Fn ThreadSafeMessageBox) : Method Handler
  | Node_handleQuestion (fn : Fn ThreadSafeQuestion) : Method Handler
  | Node_handleShowProgress (fn : Fn ShowProgress) : Method Handler
  | Node_handleLoadWallet (fn : LoadWalletFn) : Method Handler
  | Node_handleNotifyNumConnectionsChanged
      (fn : Fn NotifyNumConnectionsChanged) : Method Handler
  | Node_handleNotifyNetworkActiveChanged
      (fn : Fn NotifyNetworkActiveChanged) : Method Handler
  | Node_handleNotifyAlertChanged (fn : Fn NotifyAlertChanged) : Method Handler
  | Node_handleBannedListChanged (fn : Fn BannedListChanged) : Method Handler
  | Node_handleNotifyBlockTip (fn : NotifyBlockTipFn) : Method Handler
  | Node_handleNotifyHeaderTip (fn : NotifyHeaderTipFn) : Method Handler
  | Wallet_handleShowProgress (this : WalletImpl)
      (fn : Fn (Wallet_ShowProgress (m_wallet this))) : Method Handler.

Definition run (ENABLE_WALLET : bool) {A : Type} (m : Method A) : M A :=
  match m in Method T return M T with
  | Node_query q => ask q
  | Node_startShutdown => startShutdown
  | Node_mapPort use_upnp => mapPort use_upnp
  | Node_setNetworkActive active => setNetworkActive active
  | Node_handleInitMessage fn => handleInitMessage fn
  | Node_handleMessageBox fn => handleMessageBox fn
  | Node_handleQuestion fn => handleQuestion fn
  | Node_handleShowProgress fn => handleShowProgress fn
  | Node_handleLoadWallet fn => handleLoadWallet ENABLE_WALLET fn
  | Node_handleNotifyNumConnectionsChanged fn =>
      handleNotifyNumConnectionsChanged fn
  | Node_handleNotifyNetworkActiveChanged fn =>
      handleNotifyNetworkActiveChanged fn
  | Node_handleNotifyAlertChanged fn => handleNotifyAlertChanged fn
  | Node_handleBannedListChanged fn => handleBannedListChanged fn
  | Node_handleNotifyBlockTip fn => handleNotifyBlockTip fn
  | Node_handleNotifyHeaderTip fn => handleNotifyHeaderTip fn
  | Wallet_handleShowProgress this fn => WalletImpl_handleShowProgress this fn
  end.

(** The world in which the entry points [cs] have been called, in this
    order, after those already recorded. *)
Definition called (cs : list Call) (w : World) : World :=
  {| globals := globals w; uiInterface := uiInterface w; env := env w;
     calls := calls w ++ cs |}.

(** The world a method leaves behind, and what it returned or threw. *)
Definition world_after {A : Type} (m : M A) (w : World) : World := snd (m w).
Definition outcome {A : Type} (m : M A) (w : World) : Outcome A := fst (m w).

(** ** Subscriptions and events in sequence *)

(** The signal a subscription method connects to, read off its body. *)
Definition subscribes_to {A : Type} (m : Method A) : option Channel :=
  match m with
  | Node_handleInitMessage _ => Some InitMessage
  | Node_handleMessageBox _ => Some ThreadSafeMessageBox
  | Node_handleQuestion _ => Some ThreadSafeQuestion
  | Node_handleShowProgress _ => Some ShowProgress
  | Node_handleLoadWallet _ => Some LoadWallet
  | Node_handleNotifyNumConnectionsChanged _ =>
      Some NotifyNumConnectionsChanged
  | Node_handleNotifyNetworkActiveChanged _ => Some NotifyNetworkActiveChanged
  | Node_handleNotifyAlertChanged _ => Some NotifyAlertChanged
  | Node_handleBannedListChanged _ => Some BannedListChanged
  | Node_handleNotifyBlockTip _ => Some NotifyBlockTip
  | Node_handleNotifyHeaderTip _ => Some NotifyHeaderTip
  | Wallet_handleShowProgress this _ =>
      Some (Wallet_ShowProgress (m_wallet this))
  | _ => None
  end.

(** [subscribe] hands the arguments of signal [c] to the callback as they
    are: once a callback is subscribed, raising [c] with [a] runs the earlier
    subscribers and then calls the callback with [a]. *)
Definition delivers_verbatim (c : Channel) (to_signal : FnArgs c -> SigArgs c)
    (subscribe : Fn c -> M Handler) : Prop :=
  forall (fn : Fn c) (a : FnArgs c) (w : World),
    env (world_after (signal_emit c (to_signal a))
           (world_after (subscribe fn) w)) =
    call fn a (env (world_after (signal_emit c (to_signal a)) w)).


(** The owning subsystem raising one signal several times. *)
Definition raise_all (c : Channel) (args : list (SigArgs c)) : M unit :=
  fold_right (fun a k => bind (signal_emit c a) (fun _ => k)) (ret tt) args.

(** [MakeWallet] called once for each wallet of a list, in order. *)
Fixpoint MakeWallets (wallets : list CWalletRef) (env : Env)
  : list WalletPtr * Env :=
  match wallets with
  | [] => ([], env)
  | wallet :: rest =>
      let r := MakeWallet wallet env in
      let rs := MakeWallets rest (snd r) in
      (fst r :: fst rs, snd rs)
  end.

End Model.

Arguments mkSignal {_ A} _ _.
Arguments slots {_ A} _.
Arguments next_id {_ A} _.

(** ** Start-up *)

(** [init.h], [config.h], [rpc/server.h], [httprpc.h]: the start-up entry
    points that [baseInitialize], [appInitMain] and [appShutdown] call.
    [Process] is whatever state of the process they read and write. *)
Class StartUp : Type := {
  Config : Type;
  RPCServer : Type;
  HTTPRPCRequestProcessor : Type;
  Process : Type;
  AppInitBasicSetup : Process -> bool * Process;
  AppInitParameterInteraction : Config -> RPCServer -> Process -> bool * Process;
  AppInitSanityChecks : Process -> bool * Process;
  AppInitLockDataDirectory : Process -> bool * Process;
  AppInitMain : Config -> HTTPRPCRequestProcessor -> Process -> bool * Process;
  Interrupt : Process -> Process;
  Shutdown : Process -> Process
}.

(** The entry points, as names in a record of what has run. *)
Inductive InitStep : Type :=
  | BasicSetup
  | ParameterInteraction
  | SanityChecks
  | LockDataDirectory
  | InitMain
  | Interrupted
  | ShutDown.

Section Boot.
Context `{StartUp}.

(** The process together with the entry points that have run, oldest
    first. *)
Record Booting : Type := mkBooting {
  process : Process;
  ran : list InitStep
}.

(** Calling one entry point. *)
Definition step (tag : InitStep) (f : Process -> bool * Process)
    (b : Booting) : bool * Booting :=
  let r := f (process b) in
  (fst r, {| process := snd r; ran := ran b ++ [tag] |}).

(** The C++ operator [&&] on two calls: the right one is evaluated only if
    the left one returned [true]. *)
Definition and_then (l r : Booting -> bool * Booting) (b : Booting)
  : bool * Booting :=
  let x := l b in
  if fst x then r (snd x) else (false, snd x).

(** [NodeImpl::baseInitialize]; [&&] associates to the left. *)
Definition baseInitialize (config : Config) (rpcServer : RPCServer)
  : Booting -> bool * Booting :=
  and_then
    (and_then
       (and_then (step BasicSetup AppInitBasicSetup)
          (step ParameterInteraction
             (AppInitParameterInteraction config rpcServer)))
       (step SanityChecks AppInitSanityChecks))
    (step LockDataDirectory AppInitLockDataDirectory).

(** [NodeImpl::appInitMain]. *)
Definition appInitMain (config : Config)
    (httpRPCRequestProcessor : HTTPRPCRequestProcessor)
  : Booting -> bool * Booting :=
  step InitMain (AppInitMain config httpRPCRequestProcessor).

(** [NodeImpl::appShutdown]. *)
Definition appShutdown (b : Booting) : Booting :=
  let b1 := {| process := Interrupt (process b);
               ran := ran b ++ [Interrupted] |} in
  {| process := Shutdown (process b1); ran := ran b1 ++ [ShutDown] |}.

(** The steps of [baseInitialize], in the order they are written. *)
Definition base_steps : list InitStep :=
  [BasicSetup; ParameterInteraction; SanityChecks; LockDataDirectory].

End Boot.

(** ** A concrete node, on which the model can be evaluated *)

Record BlockIndex : Type := mkBlockIndex { bi_height : Z; bi_time : Z }.

Record Connman : Type := mkConnman {
  cm_nodes : Z; cm_recv : Z; cm_sent : Z; cm_active : bool
}.

(** What the external consumer of the concrete node writes down when one of
    its callbacks runs. *)
Inductive Received : Type :=
  | got_tip (initial_download : bool) (height block_time : Z)
      (progress : spec_float)
  | got_wallet (facade : nat)
  | got_plain.

(** The binary64 number nearest to 0.999999. *)
Definition progress_0_999999 : spec_float :=
  S754_finite false 9007190247541737 (-53).

Definition demo : Collaborators := {|
  CBlockIndex := BlockIndex;
  nHeight := bi_height;
  GetBlockTime := bi_time;
  CChain := list BlockIndex;
  Tip := fun chain => last chain;
  Height := fun chain => Z.of_nat (length chain) - 1;
  CBlock := Z;
  CBlock_GetBlockTime := fun t => t;
  ChainTxData := unit;
  CChainParams := Z;
  GenesisBlock := fun genesis_time => genesis_time;
  TxData := fun _ => tt;
  double := spec_float;
  GuessVerificationProgress := fun _ tip =>
    match tip with
    | Some b => if bi_height b <? 100 then S754_zero false
                else progress_0_999999
    | None => S754_zero false
    end;
  CConnman := Connman;
  NumConnections := unit;
  GetNodeCount := fun cm _ => cm_nodes cm;
  GetTotalBytesRecv := cm_recv;
  GetTotalBytesSent := cm_sent;
  GetNetworkActive := cm_active;
  CTxMemPool := list Z;
  mempool_size := fun pool => Z.of_nat (length pool);
  DynamicMemoryUsage := fun pool => 8 * Z.of_nat (length pool);
  FnArgs := fun _ => unit;
  External := list Received
|}.

(** The external consumer's callbacks: each appends what it was given. *)
Definition record_tip : @NotifyBlockTipFn demo :=
  fun initial_download height block_time progress log =>
    log ++ [got_tip initial_download height block_time progress].

Definition record_wallet : @LoadWalletFn demo :=
  fun facade log => log ++ [got_wallet facade].

Definition record_plain (c : Channel) : @Fn demo c :=
  fun _ log => log ++ [got_plain].

(** A node before start-up has finished: no connection manager, no best
    header, an empty active chain, no subscriber. *)
Definition globals0 : @Globals demo :=
  @mkGlobals demo None [] None [] 1231006505 false false false true.

Definition no_subscriber : @Channels demo :=
  fun _ => {| slots := []; next_id := 0 |}.

Definition world0 : @World demo :=
  @mkWorld demo globals0 no_subscriber (@mkEnv demo [] []) [].

(** A running node at height 100. *)
Definition block100 : BlockIndex :=
  {| bi_height := 100; bi_time := 1231469665 |}.

Definition connman1 : Connman :=
  {| cm_nodes := 8; cm_recv := 4096; cm_sent := 1024; cm_active := true |}.

Definition globals1 : @Globals demo :=
  @mkGlobals demo (Some connman1) [7; 9] (Some block100) [block100]
    1231006505 false false false false.

Definition world1 : @World demo :=
  @mkWorld demo globals1 no_subscriber (@mkEnv demo [] []) [].

(** A start-up in which the process state counts the entry points that have
    run and the sanity checks fail exactly when [sane] is [false]. *)
Definition demo_startup (sane : bool) : StartUp := {|
  Config := unit;
  RPCServer := unit;
  HTTPRPCRequestProcessor := unit;
  Process := nat;
  AppInitBasicSetup := fun n => (true, S n);
  AppInitParameterInteraction := fun _ _ n => (true, S n);
  AppInitSanityChecks := fun n => (sane, S n);
  AppInitLockDataDirectory := fun n => (true, S n);
  AppInitMain := fun _ _ n => (true, S n);
  Interrupt := fun n => n;
  Shutdown := fun _ => 0%nat
|}.

Definition fresh_process (sane : bool) : @Booting (demo_startup sane) :=
  @mkBooting (demo_startup sane) 0%nat [].

(** The running node with one wallet-loaded subscriber. *)
Definition world_wallets : @World demo :=
  world_after (handleLoadWallet (H := demo) true record_wallet) world1.

(** * Properties *)

Section Properties.
Context `{Collaborators}.

Notation "x <- m ;; k" := (bind m (fun x => k))
  (at level 100, m at next level, right associativity, only parsing).

(** Unfolds a method body down to the world it builds. *)
Ltac run_method :=
  unfold world_after, outcome, fmap_M, signal_connect, signal_emit, invoke,
    gets, bind, ret, throw; cbn.

(** ** Channels *)

Lemma set_channel_same c sig (chs : Channels) : set_channel c sig chs c = sig.
Proof.
  unfold set_channel. destruct (decide (c = c)) as [e | ne]; [| done].
  by rewrite (proof_irrel e eq_refl).
Qed.

Lemma set_channel_other c c' sig (chs : Channels) :
  c <> c' -> set_channel c sig chs c' = chs c'.
Proof.
  intros ne. unfold set_channel. by destruct (decide (c = c')).
Qed.

Lemma run_slots_app {A : Type} (pre post : list (nat * Slot A)) g a e :
  run_slots (pre ++ post) g a e = run_slots post g a (run_slots pre g a e).
Proof. apply fold_left_app. Qed.

(** A raised signal runs the slots before a registration, then the
    registered slot, then the slots after it. *)
Lemma emit_split {A : Type} (sig : Signal A) pre id s post g a e :
  slots sig = pre ++ (id, s) :: post ->
  emit sig g a e = run_slots post g a (s g a (run_slots pre g a e)).
Proof. intros Hs. unfold emit. rewrite Hs. by rewrite run_slots_app. Qed.

(** A newly connected slot runs last. *)
Lemma emit_connect {A : Type} (s : Slot A) (sig : Signal A) g a e :
  emit (snd (connect s sig)) g a e = s g a (emit sig g a e).
Proof. unfold emit, connect; cbn. apply run_slots_app. Qed.

Lemma disconnect_idempotent {A : Type} id (sig : Signal A) :
  disconnect id (disconnect id sig) = disconnect id sig.
Proof.
  unfold disconnect; cbn. f_equal.
  induction (slots sig) as [| p l IH]; cbn; [done |].
  destruct (negb (fst p =? id)%nat) eqn:E; cbn; rewrite ?E, IH; done.
Qed.

Lemma disconnect_not_registered {A : Type} id (sig : Signal A) :
  ~ In id (registered (disconnect id sig)).
Proof.
  unfold registered, disconnect; cbn. intros Hin.
  apply in_map_iff in Hin as [p [Hp Hin]].
  apply filter_In in Hin as [_ Hne].
  rewrite Hp, Nat.eqb_refl in Hne. discriminate.
Qed.

Lemma connect_wf {A : Type} (s : Slot A) (sig : Signal A) :
  wf_signal sig -> wf_signal (snd (connect s sig)).
Proof.
  intros [Hnd Hlt]. unfold wf_signal, registered, connect; cbn.
  rewrite map_app; cbn. split.
  - apply NoDup_app. repeat split; [done | | apply NoDup_singleton].
    intros id Hin ->%list_elem_of_singleton.
    rewrite Forall_forall in Hlt. specialize (Hlt _ Hin). lia.
  - apply Forall_app. split; [| by repeat constructor].
    eapply Forall_impl; [exact Hlt |]. cbn; lia.
Qed.

Lemma connect_fresh {A : Type} (s : Slot A) (sig : Signal A) :
  wf_signal sig -> ~ In (fst (connect s sig)) (registered sig).
Proof.
  intros [_ Hlt] Hin%list_elem_of_In. cbn in Hin.
  rewrite Forall_forall in Hlt. specialize (Hlt _ Hin). lia.
Qed.

Lemma disconnect_wf {A : Type} id (sig : Signal A) :
  wf_signal sig -> wf_signal (disconnect id sig).
Proof.
  intros [Hnd Hlt]. unfold wf_signal, registered in *. cbn.
  induction (slots sig) as [| p l IH]; cbn in *; [done |].
  apply NoDup_cons in Hnd as [Hp Hnd]. apply Forall_cons in Hlt as [Hlp Hlt].
  destruct (IH Hnd Hlt) as [IHnd IHlt].
  destruct (negb (fst p =? id)%nat); cbn; [| done].
  split; [| by constructor].
  apply NoDup_cons. split; [| done].
  intros Hin. apply Hp. apply list_elem_of_In in Hin. apply list_elem_of_In.
  apply in_map_iff in Hin as (q & Hq & Hin%filter_In).
  apply in_map_iff. exists q. tauto.
Qed.

(** ** Queries *)

Lemma ask_pure {A : Type} (q : Query A) (w : World) :
  exists v, ask q w = (Ret v, w).
Proof.
  destruct q; cbn;
    unfold shutdownRequested, getNodeCount, getTotalBytesRecv,
      getTotalBytesSent, getMempoolSize, getMempoolDynamicUsage, getHeaderTip,
      getNumBlocks, getLastBlockTime, getVerificationProgress,
      isInitialBlockDownload, getReindex, getImporting, getNetworkActive;
    run_method; eauto.
  - destruct (pindexBestHeader (globals w)); eauto.
  - destruct (Tip (chainActive (globals w))); eauto.
Qed.

(** ** Chain-tip subscriptions *)

(** C1. [handleNotifyBlockTip] and [handleNotifyHeaderTip] connect, behind
    the slots already connected, a slot for the callback [fn] and return a
    connected handle.  Whenever the signal is raised with
    [(initial_download, block)] in a world that holds this registration, the
    slots before it run, then [fn] is called once with [initial_download], the
    block's height, the block's time and [GuessVerificationProgress] of the
    current chain parameters' transaction data and the block, then the slots
    after it run.  In particular, subscribing and then raising the block-tip
    signal outside initial download for a block of height 100, time [T] and
    estimated progress [p] calls [fn false 100 T p]. *)
Theorem tip_events_are_translated (fn : NotifyBlockTipFn) (w : World) :
  (outcome (handleNotifyBlockTip fn) w =
     Ret (MakeHandler (NotifyBlockTip, next_id (uiInterface w NotifyBlockTip)))
   /\ slots (uiInterface (world_after (handleNotifyBlockTip fn) w)
               NotifyBlockTip) =
      slots (uiInterface w NotifyBlockTip) ++
      [(next_id (uiInterface w NotifyBlockTip), tip_slot fn)]) /\
  (outcome (handleNotifyHeaderTip fn) w =
     Ret (MakeHandler
            (NotifyHeaderTip, next_id (uiInterface w NotifyHeaderTip)))
   /\ slots (uiInterface (world_after (handleNotifyHeaderTip fn) w)
               NotifyHeaderTip) =
      slots (uiInterface w NotifyHeaderTip) ++
      [(next_id (uiInterface w NotifyHeaderTip), tip_slot fn)]) /\
  (forall id pre post initial_download block,
     let before :=
       run_slots pre (globals w) (initial_download, block) (env w) in
     let after :=
       {| constructed := constructed before;
          ext := fn initial_download (nHeight block) (GetBlockTime block)
                   (GuessVerificationProgress (TxData (Params_ (globals w)))
                      (Some block))
                   (ext before) |} in
     (slots (uiInterface w NotifyBlockTip) = pre ++ (id, tip_slot fn) :: post ->
      env (world_after (signal_emit NotifyBlockTip (initial_download, block)) w)
      = run_slots post (globals w) (initial_download, block) after) /\
     (slots (uiInterface w NotifyHeaderTip) = pre ++ (id, tip_slot fn) :: post ->
      env (world_after (signal_emit NotifyHeaderTip (initial_download, block)) w)
      = run_slots post (globals w) (initial_download, block) after)) /\
  (forall block T p,
     nHeight block = 100 ->
     GetBlockTime block = T ->
     GuessVerificationProgress (TxData (Params_ (globals w))) (Some block) = p ->
     ext (env (world_after (signal_emit NotifyBlockTip (false, block))
                 (world_after (handleNotifyBlockTip fn) w)))
     = fn false 100 T p
         (ext (env (world_after (signal_emit NotifyBlockTip (false, block))
                      w)))).
Proof.
  repeat apply conj.
  - reflexivity.
  - unfold handleNotifyBlockTip. run_method. by rewrite set_channel_same.
  - reflexivity.
  - unfold handleNotifyHeaderTip. run_method. by rewrite set_channel_same.
  - intros id pre post initial_download block before after; split;
      intros Hs; run_method; rewrite (emit_split _ _ _ _ _ _ _ _ Hs);
      reflexivity.
  - intros block T p Hh Ht Hp. unfold handleNotifyBlockTip. run_method.
    rewrite set_channel_same.
    rewrite (emit_connect (tip_slot fn) (uiInterface w NotifyBlockTip)).
    cbn. by rewrite Hh, Ht, Hp.
Qed.

(** ** The header tip *)

(** C3. Without a best header [getHeaderTip] returns [false] and both
    reference parameters keep the value they were passed with; with a best
    header it returns [true], [height] holds the header's height and
    [block_time] its block time.  Neither case changes the world. *)
Theorem getHeaderTip_absent_or_tip (w : World) (height block_time : Z) :
  (pindexBestHeader (globals w) = None ->
   getHeaderTip height block_time w = (Ret (false, height, block_time), w)) /\
  (forall header, pindexBestHeader (globals w) = Some header ->
   getHeaderTip height block_time w =
     (Ret (true, nHeight header, GetBlockTime header), w)).
Proof.
  unfold getHeaderTip; run_method.
  split; [intros -> | intros header ->]; reflexivity.
Qed.

(** ** The wallet-loaded subscription *)

(** C4. In a build without [ENABLE_WALLET], [handleLoadWallet] throws
    [std::logic_error] for every callback and in every world: it returns no
    handle, and it leaves the world, the [LoadWallet] signal included, as it
    was. *)
Theorem handleLoadWallet_non_wallet_build (fn : LoadWalletFn) (w : World) :
  handleLoadWallet false fn w =
    (Throw (logic_error "Wallet function called in non-wallet build."), w) /\
  (forall h, outcome (handleLoadWallet false fn) w <> Ret h) /\
  world_after (handleLoadWallet false fn) w = w.
Proof. repeat split. intros h; discriminate. Qed.

(** C5. In a build with [ENABLE_WALLET], [handleLoadWallet] registers a slot
    for [fn] behind those already connected and returns a connected handle.
    Whenever [LoadWallet] is raised with [wallet] in a world that holds this
    registration, between the slots before and after it exactly one
    [WalletImpl] is constructed, it wraps [wallet], no earlier facade is at
    its position, and [fn] is called once, with that facade. *)
Theorem handleLoadWallet_one_fresh_facade (fn : LoadWalletFn) (w : World) :
  (outcome (handleLoadWallet true fn) w =
     Ret (MakeHandler (LoadWallet, next_id (uiInterface w LoadWallet))) /\
   slots (uiInterface (world_after (handleLoadWallet true fn) w) LoadWallet) =
     slots (uiInterface w LoadWallet) ++
     [(next_id (uiInterface w LoadWallet), LoadWallet_slot fn)]) /\
  (forall id pre post wallet,
     slots (uiInterface w LoadWallet) = pre ++ (id, LoadWallet_slot fn) :: post ->
     let before := run_slots pre (globals w) wallet (env w) in
     let facade := length (constructed before) in
     let after :=
       {| constructed := constructed before ++ [mkWalletImpl wallet];
          ext := fn facade (ext before) |} in
     constructed before !! facade = None /\
     constructed after !! facade = Some (mkWalletImpl wallet) /\
     length (constructed after) = S (length (constructed before)) /\
     env (world_after (signal_emit LoadWallet wallet) w) =
       run_slots post (globals w) wallet after).
Proof.
  split; [split |].
  - reflexivity.
  - unfold handleLoadWallet, CHECK_WALLET. run_method.
    by rewrite set_channel_same.
  - intros id pre post wallet Hs before facade after. repeat split.
    + apply lookup_ge_None_2. unfold facade. lia.
    + unfold after, facade; cbn.
      rewrite lookup_app_r by lia. by rewrite Nat.sub_diag.
    + unfold after; cbn. rewrite length_app; cbn. lia.
    + run_method. rewrite (emit_split _ _ _ _ _ _ _ _ Hs). reflexivity.
Qed.

(** ** The connection manager *)

(** C6. No query method throws, in any world.  Without a connection manager
    [getNodeCount], [getTotalBytesRecv] and [getTotalBytesSent] return 0 and
    [getNetworkActive] returns [false]. *)
Theorem queries_without_connman (w : World) :
  (forall (A : Type) (q : Query A), exists v, ask q w = (Ret v, w)) /\
  (g_connman (globals w) = None ->
   (forall flags, getNodeCount flags w = (Ret 0, w)) /\
   getTotalBytesRecv w = (Ret 0, w) /\
   getTotalBytesSent w = (Ret 0, w) /\
   getNetworkActive w = (Ret false, w)).
Proof.
  split; [intros A q; apply ask_pure |].
  intros Hnone.
  unfold getNodeCount, getTotalBytesRecv, getTotalBytesSent, getNetworkActive.
  run_method. rewrite Hnone. auto.
Qed.

(** ** Subscription handles *)

(** C7. Disconnecting a handle that is marked disconnected returns the same
    handle and the same world, without throwing.  A first disconnect returns a
    handle marked disconnected, after which its registration is no longer in
    its channel; a second disconnect, on that handle in that world, changes
    neither.  The channel's own removal is idempotent as well. *)
Theorem Handler_disconnect_at_most_once (h : Handler) (w : World) :
  (h_connected h = false -> Handler_disconnect h w = (Ret h, w)) /\
  (exists h1,
     outcome (Handler_disconnect h) w = Ret h1 /\
     h_connected h1 = false /\
     (h_connected h = true ->
      ~ In (h_id h)
          (registered
             (uiInterface (world_after (Handler_disconnect h) w)
                (h_channel h)))) /\
     Handler_disconnect h1 (world_after (Handler_disconnect h) w) =
       (Ret h1, world_after (Handler_disconnect h) w)) /\
  disconnect (h_id h) (disconnect (h_id h) (uiInterface w (h_channel h))) =
    disconnect (h_id h) (uiInterface w (h_channel h)).
Proof.
  repeat apply conj.
  - unfold Handler_disconnect. by intros ->.
  - unfold world_after, outcome, Handler_disconnect.
    destruct h as [c id [|]]; cbn.
    + eexists; repeat split. intros _. rewrite set_channel_same.
      apply disconnect_not_registered.
    + exists {| h_channel := c; h_id := id; h_connected := false |}.
      repeat split. discriminate.
  - apply disconnect_idempotent.
Qed.

(** ** Control methods *)

(** C8, as amended.  [startShutdown] calls [StartShutdown]; [mapPort(true)]
    calls [StartMapPort]; [mapPort(false)] calls [InterruptMapPort] and then
    [StopMapPort]; [setNetworkActive(active)] calls
    [g_connman->SetNetworkActive(active)] when there is a connection manager
    and calls nothing when there is none.  Each returns at once, returns no
    value, and changes nothing else. *)
Theorem control_methods_forward (w : World) :
  startShutdown w = (Ret tt, called [StartShutdown] w) /\
  mapPort true w = (Ret tt, called [StartMapPort] w) /\
  mapPort false w = (Ret tt, called [InterruptMapPort; StopMapPort] w) /\
  (forall active connman,
     g_connman (globals w) = Some connman ->
     setNetworkActive active w =
       (Ret tt, called [CConnman_SetNetworkActive active] w)) /\
  (forall active,
     g_connman (globals w) = None -> setNetworkActive active w = (Ret tt, w)).
Proof.
  repeat apply conj.
  - reflexivity.
  - reflexivity.
  - unfold mapPort, called. run_method. by rewrite <- app_assoc.
  - intros active connman Hc. unfold setNetworkActive. run_method.
    by rewrite Hc.
  - intros active Hc. unfold setNetworkActive. run_method. by rewrite Hc.
Qed.

(** ** Statelessness *)

Lemma ask_reads_globals {A : Type} (q : Query A) (w w' : World) :
  globals w' = globals w -> outcome (ask q) w' = outcome (ask q) w.
Proof.
  intros Hg. destruct q; cbn;
    unfold shutdownRequested, getNodeCount, getTotalBytesRecv,
      getTotalBytesSent, getMempoolSize, getMempoolDynamicUsage, getHeaderTip,
      getNumBlocks, getLastBlockTime, getVerificationProgress,
      isInitialBlockDownload, getReindex, getImporting, getNetworkActive;
    run_method; rewrite Hg; try reflexivity.
  - by destruct (pindexBestHeader (globals w)).
  - destruct (Tip (chainActive (globals w))); cbn; by rewrite ?Hg.
Qed.

(** C9. No operation of either facade changes a facade object: the
    [WalletImpl] objects constructed so far are the same afterwards, and
    [NodeImpl] has no member to change.  A query method returns without
    throwing and leaves the whole world as it was, so asking twice gives the
    same value twice; and its value is the same in any two worlds with the same
    node globals. *)
Theorem facades_are_stateless (ENABLE_WALLET : bool) (w : World) :
  (forall (A : Type) (m : Method A),
     constructed (env (world_after (run ENABLE_WALLET m) w)) =
     constructed (env w)) /\
  (forall (A : Type) (q : Query A),
     exists v,
       ask q w = (Ret v, w) /\
       (x <- ask q ;; y <- ask q ;; ret (x, y)) w = (Ret (v, v), w)) /\
  (forall (A : Type) (q : Query A) (w' : World),
     globals w' = globals w -> outcome (ask q) w' = outcome (ask q) w).
Proof.
  repeat apply conj.
  - intros A m. destruct m; cbn;
      try (destruct (ask_pure q w) as [v Hv];
           unfold world_after; by rewrite Hv);
      try reflexivity.
    + by destruct use_upnp.
    + unfold setNetworkActive. run_method.
      by destruct (g_connman (globals w)).
    + by destruct ENABLE_WALLET.
  - intros A q. destruct (ask_pure q w) as [v Hv]. exists v. split; [done |].
    unfold bind. by rewrite !Hv.
  - intros A q w'. apply ask_reads_globals.
Qed.

(** ** The last block time *)

(** C10. [getLastBlockTime] always returns a time and changes nothing: the
    tip's block time when the active chain has a tip, the block time of the
    genesis block of the selected chain parameters when it has none. *)
Theorem getLastBlockTime_tip_or_genesis (w : World) :
  (exists t, getLastBlockTime w = (Ret t, w)) /\
  (forall tip, Tip (chainActive (globals w)) = Some tip ->
     getLastBlockTime w = (Ret (GetBlockTime tip), w)) /\
  (Tip (chainActive (globals w)) = None ->
     getLastBlockTime w =
       (Ret (CBlock_GetBlockTime (GenesisBlock (Params_ (globals w)))), w)).
Proof.
  unfold getLastBlockTime; run_method. repeat apply conj.
  - destruct (Tip (chainActive (globals w))); eauto.
  - by intros tip ->.
  - by intros ->.
Qed.

End Properties.

(** * The properties on the concrete node *)

(** The node at height 100 with one block-tip subscriber, one wallet-loaded
    subscriber. *)
Lemma tip_events_are_translated_witness :
  @ext demo
    (env (world_after (signal_emit (H := demo) NotifyBlockTip (false, block100))
            (world_after (handleNotifyBlockTip (H := demo) record_tip) world1)))
  = [got_tip false 100 1231469665 progress_0_999999]
  /\ @env demo
       (world_after (signal_emit (H := demo) NotifyHeaderTip (true, block100))
          (world_after (handleNotifyHeaderTip (H := demo) record_tip) world1))
     = @mkEnv demo [] [got_tip true 100 1231469665 progress_0_999999].
Proof.
  split.
  - destruct (@tip_events_are_translated demo record_tip world1)
      as (_ & _ & _ & Hscenario).
    exact (Hscenario block100 1231469665 progress_0_999999
             eq_refl eq_refl eq_refl).
  - destruct (@tip_events_are_translated demo record_tip
                (world_after (handleNotifyHeaderTip (H := demo) record_tip) world1))
      as (_ & _ & Hevent & _).
    exact (proj2 (Hevent 0%nat [] [] true block100) eq_refl).
Defined.

Lemma getHeaderTip_absent_or_tip_witness :
  getHeaderTip (H := demo) 5 6 world0 = (Ret (false, 5, 6), world0) /\
  getHeaderTip (H := demo) 5 6 world1 = (Ret (true, 100, 1231469665), world1).
Proof.
  split.
  - exact (proj1 (@getHeaderTip_absent_or_tip demo world0 5 6) eq_refl).
  - exact (proj2 (@getHeaderTip_absent_or_tip demo world1 5 6) block100
             eq_refl).
Defined.

Lemma handleLoadWallet_one_fresh_facade_witness :
  @env demo
    (world_after (signal_emit (H := demo) LoadWallet 7%nat)
       (world_after (handleLoadWallet (H := demo) true record_wallet) world1))
  = @mkEnv demo [mkWalletImpl 7%nat] [got_wallet 0%nat].
Proof.
  destruct (@handleLoadWallet_one_fresh_facade demo record_wallet
              (world_after (handleLoadWallet (H := demo) true record_wallet) world1))
    as (_ & Hevent).
  exact (proj2 (proj2 (proj2 (Hevent 0%nat [] [] 7%nat eq_refl)))).
Defined.

Lemma queries_without_connman_witness :
  getNodeCount (H := demo) tt world0 = (Ret 0, world0) /\
  getTotalBytesRecv (H := demo) world0 = (Ret 0, world0) /\
  getTotalBytesSent (H := demo) world0 = (Ret 0, world0) /\
  getNetworkActive (H := demo) world0 = (Ret false, world0).
Proof.
  destruct (proj2 (@queries_without_connman demo world0) eq_refl)
    as (Hcount & Hrest).
  exact (conj (Hcount tt) Hrest).
Defined.

Lemma Handler_disconnect_at_most_once_witness :
  let w := world_after (handleNotifyBlockTip (H := demo) record_tip) world1 in
  let h := MakeHandler (NotifyBlockTip, 0%nat) in
  let gone := {| h_channel := NotifyBlockTip; h_id := 0;
                 h_connected := false |} in
  Handler_disconnect gone w = (Ret gone, w) /\
  ~ In 0%nat
      (registered
         (uiInterface (world_after (Handler_disconnect h) w) NotifyBlockTip)).
Proof.
  intros w h gone. split.
  - exact (proj1 (@Handler_disconnect_at_most_once demo gone w) eq_refl).
  - destruct (proj1 (proj2 (@Handler_disconnect_at_most_once demo h w)))
      as (h1 & _ & _ & Hgone & _).
    exact (Hgone eq_refl).
Defined.

Lemma control_methods_forward_witness :
  setNetworkActive (H := demo) true world1 =
    (Ret tt, called [CConnman_SetNetworkActive true] world1) /\
  setNetworkActive (H := demo) true world0 = (Ret tt, world0).
Proof.
  destruct (@control_methods_forward demo world1) as (_ & _ & _ & Hsome & _).
  destruct (@control_methods_forward demo world0) as (_ & _ & _ & _ & Hnone).
  exact (conj (Hsome true connman1 eq_refl) (Hnone true eq_refl)).
Defined.

(** C8, as stated, at a node without connection manager: [setNetworkActive]
    returns and nothing has been called, so the flag was not forwarded. *)
Lemma setNetworkActive_not_forwarded_without_connman :
  calls (world_after (setNetworkActive (H := demo) true) world0) = [] /\
  calls (world_after (setNetworkActive (H := demo) true) world0) <>
    calls world0 ++ [CConnman_SetNetworkActive true].
Proof. split; [reflexivity | discriminate]. Qed.

Lemma facades_are_stateless_witness :
  outcome (ask (H := demo) Q_getNumBlocks) (called [StartShutdown] world1) =
  outcome (ask (H := demo) Q_getNumBlocks) world1.
Proof.
  exact (proj2 (proj2 (@facades_are_stateless demo true world1)) Z
           Q_getNumBlocks (called [StartShutdown] world1) eq_refl).
Defined.

Lemma getLastBlockTime_tip_or_genesis_witness :
  getLastBlockTime (H := demo) world1 = (Ret 1231469665, world1) /\
  getLastBlockTime (H := demo) world0 = (Ret 1231006505, world0).
Proof.
  split.
  - exact (proj1 (proj2 (@getLastBlockTime_tip_or_genesis demo world1))
             block100 eq_refl).
  - exact (proj2 (proj2 (@getLastBlockTime_tip_or_genesis demo world0))
             eq_refl).
Defined.

(** * Further properties of the two files *)

Section Subscriptions.
Context `{Collaborators}.

Ltac unfold_method :=
  unfold world_after, outcome, fmap_M, signal_connect, signal_emit, invoke,
    gets, bind, ret, throw; cbn.

Ltac unfold_handlers :=
  unfold handleInitMessage, handleMessageBox, handleQuestion,
    handleShowProgress, handleLoadWallet, CHECK_WALLET,
    handleNotifyNumConnectionsChanged, handleNotifyNetworkActiveChanged,
    handleNotifyAlertChanged, handleBannedListChanged, handleNotifyBlockTip,
    handleNotifyHeaderTip, WalletImpl_handleShowProgress.

(** X3. A subscription method (in a wallet build, for [handleLoadWallet])
    does not throw, appends one registration with the next free identifier to
    the signal of its own event kind, and leaves every other signal, the node
    globals, the callbacks' environment and the record of control calls as
    they were; no query returns anything different afterwards. *)
Theorem subscription_touches_one_signal (ENABLE_WALLET : bool) {A : Type}
    (m : Method A) (c : Channel) (w : World) :
  subscribes_to m = Some c ->
  ENABLE_WALLET = true \/ c <> LoadWallet ->
  let w' := world_after (run ENABLE_WALLET m) w in
  (forall e, outcome (run ENABLE_WALLET m) w <> Throw e) /\
  globals w' = globals w /\ env w' = env w /\ calls w' = calls w /\
  (forall c', c' <> c -> uiInterface w' c' = uiInterface w c') /\
  registered (uiInterface w' c) =
    registered (uiInterface w c) ++ [next_id (uiInterface w c)] /\
  next_id (uiInterface w' c) = S (next_id (uiInterface w c)) /\
  (forall (B : Type) (q : Query B), outcome (ask q) w' = outcome (ask q) w).
Proof.
  intros Hsub Hbuild w'.
  assert (Hshape :
    (forall e, outcome (run ENABLE_WALLET m) w <> Throw e) /\
    exists s : Slot (SigArgs c),
      w' = {| globals := globals w;
              uiInterface :=
                set_channel c (snd (connect s (uiInterface w c)))
                  (uiInterface w);
              env := env w; calls := calls w |}).
  { subst w'. destruct m; cbn in Hsub; try discriminate;
      injection Hsub as <-; cbn; unfold_handlers;
      try (destruct ENABLE_WALLET; [| by destruct Hbuild]);
      unfold_method; (split; [discriminate | eexists; reflexivity]). }
  destruct Hshape as [Hret [s ->]]. cbn.
  repeat apply conj; try done.
  - intros c' Hne. by apply set_channel_other.
  - rewrite set_channel_same. unfold registered; cbn. by rewrite map_app.
  - by rewrite set_channel_same.
  - intros B q. by apply ask_reads_globals.
Qed.

(** X4. A callback subscribed through one method is not reached by any other
    signal: raising a signal other than the method's own has the same effect
    after the subscription as before it. *)
Theorem no_cross_talk (ENABLE_WALLET : bool) {A : Type} (m : Method A)
    (c c' : Channel) (a : SigArgs c') (w : World) :
  subscribes_to m = Some c ->
  c' <> c ->
  env (world_after (signal_emit c' a) (world_after (run ENABLE_WALLET m) w)) =
  env (world_after (signal_emit c' a) w).
Proof.
  intros Hsub Hne.
  destruct m; cbn in Hsub; try discriminate; injection Hsub as <-; cbn;
    unfold_handlers; try destruct ENABLE_WALLET; unfold_method;
    try reflexivity; by rewrite set_channel_other.
Qed.

(** X10. The subscription methods that connect the callback itself hand it
    the signal's arguments unchanged: the eight of [NodeImpl] other than the
    chain-tip and wallet-loaded ones, and [WalletImpl::handleShowProgress] on
    the signal of the facade's own wallet. *)
Theorem plain_callbacks_get_the_signal_arguments :
  delivers_verbatim InitMessage (fun a => a) handleInitMessage /\
  delivers_verbatim ThreadSafeMessageBox (fun a => a) handleMessageBox /\
  delivers_verbatim ThreadSafeQuestion (fun a => a) handleQuestion /\
  delivers_verbatim ShowProgress (fun a => a) handleShowProgress /\
  delivers_verbatim NotifyNumConnectionsChanged (fun a => a)
    handleNotifyNumConnectionsChanged /\
  delivers_verbatim NotifyNetworkActiveChanged (fun a => a)
    handleNotifyNetworkActiveChanged /\
  delivers_verbatim NotifyAlertChanged (fun a => a) handleNotifyAlertChanged /\
  delivers_verbatim BannedListChanged (fun a => a) handleBannedListChanged /\
  (forall this : WalletImpl,
     delivers_verbatim (Wallet_ShowProgress (m_wallet this)) (fun a => a)
       (WalletImpl_handleShowProgress this)).
Proof.
  repeat apply conj; unfold delivers_verbatim; intros; unfold_handlers;
    unfold_method; rewrite set_channel_same; unfold emit, run_slots; cbn;
    by rewrite fold_left_app.
Qed.

(** ** Several chain-tip subscribers *)

(** What one chain-tip callback does to the environment of the callbacks. *)
Lemma emit_after_tip_subscription (fn : NotifyBlockTipFn) initial_download
    block (w : World) :
  env (world_after (signal_emit NotifyBlockTip (initial_download, block))
         (world_after (handleNotifyBlockTip fn) w)) =
  tip_slot fn (globals w) (initial_download, block)
    (env (world_after (signal_emit NotifyBlockTip (initial_download, block))
            w)).
Proof.
  unfold handleNotifyBlockTip. unfold_method. rewrite set_channel_same.
  exact (emit_connect (tip_slot fn) (uiInterface w NotifyBlockTip) _ _ _).
Qed.


(** ** Chain-tip events and the chain queries *)

(** X8. When the block-tip signal is raised for the block that is the tip of
    the active chain, the callback is given the block time that
    [getLastBlockTime] returns and the progress estimate that
    [getVerificationProgress] returns. *)
Theorem block_tip_event_agrees_with_queries (fn : NotifyBlockTipFn)
    (initial_download : bool) (block : CBlockIndex) (w : World) :
  Tip (chainActive (globals w)) = Some block ->
  exists t p,
    getLastBlockTime w = (Ret t, w) /\
    getVerificationProgress w = (Ret p, w) /\
    ext (env (world_after
                (signal_emit NotifyBlockTip (initial_download, block))
                (world_after (handleNotifyBlockTip fn) w))) =
    fn initial_download (nHeight block) t p
      (ext (env (world_after
                   (signal_emit NotifyBlockTip (initial_download, block)) w))).
Proof.
  intros Htip. eexists _, _. repeat apply conj.
  - unfold getLastBlockTime. unfold_method. by rewrite Htip.
  - unfold getVerificationProgress. unfold_method. by rewrite Htip.
  - by rewrite emit_after_tip_subscription.
Qed.

(** X9. When the header-tip signal is raised for the best header, the
    callback is given the height and block time that [getHeaderTip] writes to
    its two reference parameters. *)
Theorem header_tip_event_agrees_with_getHeaderTip (fn : NotifyHeaderTipFn)
    (initial_download : bool) (block : CBlockIndex) (w : World)
    (height block_time : Z) :
  pindexBestHeader (globals w) = Some block ->
  exists h t,
    getHeaderTip height block_time w = (Ret (true, h, t), w) /\
    ext (env (world_after
                (signal_emit NotifyHeaderTip (initial_download, block))
                (world_after (handleNotifyHeaderTip fn) w))) =
    fn initial_download h t
      (GuessVerificationProgress (TxData (Params_ (globals w))) (Some block))
      (ext (env (world_after
                   (signal_emit NotifyHeaderTip (initial_download, block))
                   w))).
Proof.
  intros Hbest. eexists _, _. split.
  - unfold getHeaderTip. unfold_method. by rewrite Hbest.
  - unfold handleNotifyHeaderTip. unfold_method. rewrite set_channel_same.
    by rewrite (emit_connect (tip_slot fn) (uiInterface w NotifyHeaderTip)).
Qed.

End Subscriptions.

Section Wallets.
Context `{Collaborators}.

Ltac unfold_method :=
  unfold world_after, outcome, fmap_M, signal_connect, signal_emit, invoke,
    gets, bind, ret, throw; cbn.

Lemma raise_all_cons (c : Channel) (a : SigArgs c) (args : list (SigArgs c))
    (w : World) :
  world_after (raise_all c (a :: args)) w =
  world_after (raise_all c args) (world_after (signal_emit c a) w).
Proof. reflexivity. Qed.

(** X6. With one wallet-loaded subscriber, a series of wallet-loaded events
    constructs one facade per event, in the order of the events and behind the
    facades that existed; the facade of the i-th event wraps the i-th wallet,
    and the callback is called once per event, with consecutive and therefore
    pairwise different facades. *)
Theorem one_facade_per_wallet_event (fn : LoadWalletFn) (id : nat)
    (wallets : list CWalletRef) (w : World) :
  slots (uiInterface w LoadWallet) = [(id, LoadWallet_slot fn)] ->
  let old := constructed (env w) in
  let e' := env (world_after (raise_all LoadWallet wallets) w) in
  constructed e' = old ++ map mkWalletImpl wallets /\
  ext e' =
    fold_left (fun x facade => fn facade x)
      (seq (length old) (length wallets)) (ext (env w)) /\
  (forall i wallet,
     wallets !! i = Some wallet ->
     constructed e' !! (length old + i)%nat = Some (mkWalletImpl wallet)).
Proof.
  intros Hs old e'.
  assert (Hmain :
    constructed e' = old ++ map mkWalletImpl wallets /\
    ext e' =
      fold_left (fun x facade => fn facade x)
        (seq (length old) (length wallets)) (ext (env w))).
  { subst old e'. revert w Hs.
    induction wallets as [| wallet rest IH]; intros w Hs.
    - cbn. by rewrite app_nil_r.
    - rewrite raise_all_cons.
      set (w1 := world_after (signal_emit LoadWallet wallet) w).
      assert (Hs1 : slots (uiInterface w1 LoadWallet) =
                    [(id, LoadWallet_slot fn)]) by exact Hs.
      assert (Hc : constructed (env w1) =
                   constructed (env w) ++ [mkWalletImpl wallet]).
      { subst w1. unfold_method.
        by rewrite (emit_split _ [] id (LoadWallet_slot fn) [] _ _ _ Hs). }
      assert (He : ext (env w1) =
                   fn (length (constructed (env w))) (ext (env w))).
      { subst w1. unfold_method.
        by rewrite (emit_split _ [] id (LoadWallet_slot fn) [] _ _ _ Hs). }
      destruct (IH w1 Hs1) as [IHc IHe]. rewrite IHc, IHe, Hc, He.
      rewrite length_app, Nat.add_1_r, <- app_assoc. split; reflexivity. }
  destruct Hmain as [Hc He]. repeat split; [done | done |].
  intros i wallet Hi. rewrite Hc, lookup_app_r by lia.
  replace (length old + i - length old)%nat with i by lia.
  by rewrite list_lookup_fmap, Hi.
Qed.

(** X7. Two callbacks subscribed to the wallet-loaded signal do not share a
    facade: one event constructs two facades for the same wallet, and each
    callback is called once, with its own. *)
Theorem each_wallet_subscriber_gets_its_own_facade (fn1 fn2 : LoadWalletFn)
    (wallet : CWalletRef) (w : World) :
  let before := env (world_after (signal_emit LoadWallet wallet) w) in
  let after :=
    env (world_after (signal_emit LoadWallet wallet)
           (world_after (handleLoadWallet true fn2)
              (world_after (handleLoadWallet true fn1) w))) in
  let n := length (constructed before) in
  constructed after =
    constructed before ++ [mkWalletImpl wallet; mkWalletImpl wallet] /\
  ext after = fn2 (S n) (fn1 n (ext before)).
Proof.
  unfold handleLoadWallet, CHECK_WALLET. unfold_method.
  rewrite !set_channel_same. unfold emit, run_slots; cbn.
  rewrite !fold_left_app; cbn.
  rewrite length_app, Nat.add_1_r, <- app_assoc. split; reflexivity.
Qed.

(** X11. [MakeWallet], called for each wallet of a list, returns a new
    facade every time: the facades returned are consecutive positions behind
    those that existed, so no two are the same and none is an earlier one; the
    facade returned for a wallet wraps that wallet; earlier facades are
    unchanged; and the external consumer's state is not touched. *)
Theorem MakeWallet_never_reuses_a_facade (wallets : list CWalletRef)
    (e : Env) :
  let r := MakeWallets wallets e in
  fst r = seq (length (constructed e)) (length wallets) /\
  NoDup (fst r) /\
  constructed (snd r) = constructed e ++ map mkWalletImpl wallets /\
  ext (snd r) = ext e /\
  (forall facade obj,
     constructed e !! facade = Some obj ->
     constructed (snd r) !! facade = Some obj) /\
  (forall i wallet facade,
     wallets !! i = Some wallet ->
     fst r !! i = Some facade ->
     constructed e !! facade = None /\
     constructed (snd r) !! facade = Some (mkWalletImpl wallet)).
Proof.
  intros r.
  assert (Hmain :
    fst r = seq (length (constructed e)) (length wallets) /\
    constructed (snd r) = constructed e ++ map mkWalletImpl wallets /\
    ext (snd r) = ext e).
  { subst r. revert e. induction wallets as [| wallet rest IH]; intros e.
    - cbn. by rewrite app_nil_r.
    - cbn [MakeWallets fst snd].
      destruct (IH (snd (MakeWallet wallet e))) as (IHp & IHc & IHe).
      rewrite IHp, IHc, IHe. cbn.
      rewrite length_app, Nat.add_1_r, <- app_assoc. repeat split. }
  destruct Hmain as (Hp & Hc & He). repeat apply conj; try done.
  - rewrite Hp. apply NoDup_ListNoDup, seq_NoDup.
  - intros facade obj Hobj. rewrite Hc. by apply lookup_app_l_Some.
  - intros i wallet facade Hw Hf. rewrite Hp in Hf.
    apply lookup_seq in Hf as [-> _]. split.
    + apply lookup_ge_None_2. lia.
    + rewrite Hc, lookup_app_r by lia.
      replace (length (constructed e) + i - length (constructed e))%nat
        with i by lia.
      by rewrite list_lookup_fmap, Hw.
Qed.

End Wallets.

Section StartUpProperties.
Context `{StartUp}.

(** X1. [baseInitialize] returns [true] exactly when all four start-up steps,
    each run on the process as the step before left it, return [true]; all
    four have then run once, in the order written. *)
Theorem baseInitialize_true_iff_all_steps (config : Config)
    (rpcServer : RPCServer) (b : Booting) :
  let s1 := AppInitBasicSetup (process b) in
  let s2 := AppInitParameterInteraction config rpcServer (snd s1) in
  let s3 := AppInitSanityChecks (snd s2) in
  let s4 := AppInitLockDataDirectory (snd s3) in
  (fst (baseInitialize config rpcServer b) = true <->
   fst s1 = true /\ fst s2 = true /\ fst s3 = true /\ fst s4 = true) /\
  (fst (baseInitialize config rpcServer b) = true ->
   snd (baseInitialize config rpcServer b) =
     {| process := snd s4; ran := ran b ++ base_steps |}).
Proof.
  intros s1 s2 s3 s4. unfold baseInitialize, and_then, step; cbn.
  fold s1. destruct (fst s1) eqn:E1; cbn; fold s2.
  2: { split; [split; [discriminate | intros (? & _); discriminate]
              | discriminate]. }
  destruct (fst s2) eqn:E2; cbn; fold s3.
  2: { split; [split; [discriminate | intros (_ & ? & _); discriminate]
              | discriminate]. }
  destruct (fst s3) eqn:E3; cbn; fold s4.
  2: { split; [split; [discriminate | intros (_ & _ & ? & _); discriminate]
              | discriminate]. }
  split; [tauto |]. intros _. unfold base_steps.
  by rewrite <- !app_assoc.
Qed.

(** X2. [baseInitialize] stops at the first step that returns [false]: it
    returns [false], the process is as that step left it, and no later step
    has run.  In particular the data directory is not locked unless the basic
    set-up, the parameter interaction and the sanity checks have all
    succeeded. *)
Theorem baseInitialize_stops_at_first_failure (config : Config)
    (rpcServer : RPCServer) (b : Booting) :
  let s1 := AppInitBasicSetup (process b) in
  let s2 := AppInitParameterInteraction config rpcServer (snd s1) in
  let s3 := AppInitSanityChecks (snd s2) in
  let s4 := AppInitLockDataDirectory (snd s3) in
  let r := baseInitialize config rpcServer b in
  (fst s1 = false ->
   r = (false, {| process := snd s1; ran := ran b ++ [BasicSetup] |})) /\
  (fst s1 = true -> fst s2 = false ->
   r = (false, {| process := snd s2;
                  ran := ran b ++ [BasicSetup; ParameterInteraction] |})) /\
  (fst s1 = true -> fst s2 = true -> fst s3 = false ->
   r = (false, {| process := snd s3;
                  ran := ran b ++
                         [BasicSetup; ParameterInteraction; SanityChecks] |}))
  /\
  (fst s1 = true -> fst s2 = true -> fst s3 = true ->
   r = (fst s4, {| process := snd s4; ran := ran b ++ base_steps |})) /\
  (~ In LockDataDirectory (ran b) ->
   In LockDataDirectory (ran (snd r)) ->
   fst s1 = true /\ fst s2 = true /\ fst s3 = true).
Proof.
  intros s1 s2 s3 s4 r. subst r.
  unfold baseInitialize, and_then, step; cbn. fold s1.
  destruct (fst s1) eqn:E1; cbn; fold s2;
    [destruct (fst s2) eqn:E2; cbn; fold s3;
       [destruct (fst s3) eqn:E3; cbn; fold s4 |] |];
    rewrite <- ?app_assoc; cbn;
    (repeat apply conj; try discriminate; try (intros; reflexivity);
     try (by destruct (fst s4)));
    intros Hnot Hin; try done;
    apply in_app_or in Hin as [Hin | Hin]; try done;
    cbn in Hin; intuition discriminate.
Qed.

End StartUpProperties.

(** * The further properties on the concrete node *)

Lemma baseInitialize_true_iff_all_steps_witness :
  fst (@baseInitialize (demo_startup true) tt tt (fresh_process true)) = true /\
  ran (snd (@baseInitialize (demo_startup true) tt tt (fresh_process true))) =
    base_steps.
Proof.
  destruct (@baseInitialize_true_iff_all_steps (demo_startup true) tt tt
              (fresh_process true)) as [Hiff Hran].
  split.
  - apply Hiff. repeat split.
  - rewrite (Hran (proj2 Hiff (conj eq_refl (conj eq_refl
                                 (conj eq_refl eq_refl))))).
    reflexivity.
Defined.

Lemma baseInitialize_stops_at_first_failure_witness :
  @baseInitialize (demo_startup false) tt tt (fresh_process false) =
    (false,
     @mkBooting (demo_startup false) 3%nat
       [BasicSetup; ParameterInteraction; SanityChecks]).
Proof.
  destruct (@baseInitialize_stops_at_first_failure (demo_startup false) tt tt
              (fresh_process false)) as (_ & _ & Hsane & _).
  exact (Hsane eq_refl eq_refl eq_refl).
Defined.

Lemma subscription_touches_one_signal_witness :
  let m := Node_handleNotifyNumConnectionsChanged (H := demo)
             (record_plain NotifyNumConnectionsChanged) in
  @registered demo _
    (uiInterface (world_after (run false m) world1)
       NotifyNumConnectionsChanged) = [0%nat] /\
  uiInterface (world_after (run false m) world1) NotifyBlockTip =
    uiInterface world1 NotifyBlockTip.
Proof.
  intros m.
  assert (Hbuild : false = true \/ NotifyNumConnectionsChanged <> LoadWallet)
    by (right; discriminate).
  destruct (@subscription_touches_one_signal demo false _ m
              NotifyNumConnectionsChanged world1 eq_refl Hbuild)
    as (_ & _ & _ & _ & Hother & Hreg & _).
  split; [exact Hreg |]. apply Hother. discriminate.
Defined.

Lemma no_cross_talk_witness :
  @env demo
    (world_after (signal_emit (H := demo) NotifyHeaderTip (false, block100))
       (world_after (run false (Node_handleNotifyBlockTip (H := demo) record_tip))
          world1)) =
  @mkEnv demo [] [].
Proof.
  assert (Hne : NotifyHeaderTip <> NotifyBlockTip) by discriminate.
  exact (@no_cross_talk demo false _
           (Node_handleNotifyBlockTip (H := demo) record_tip)
           NotifyBlockTip NotifyHeaderTip (false, block100) world1
           eq_refl Hne).
Defined.

Lemma one_facade_per_wallet_event_witness :
  @env demo
    (world_after (raise_all (H := demo) LoadWallet [7; 8; 9]%nat)
       world_wallets) =
  @mkEnv demo [mkWalletImpl 7%nat; mkWalletImpl 8%nat; mkWalletImpl 9%nat]
    [got_wallet 0%nat; got_wallet 1%nat; got_wallet 2%nat].
Proof.
  destruct (@one_facade_per_wallet_event demo record_wallet 0%nat
              [7; 8; 9]%nat world_wallets eq_refl) as (Hc & He & _).
  destruct (@env demo
              (world_after (raise_all (H := demo) LoadWallet [7; 8; 9]%nat)
                 world_wallets)) as [c e].
  cbn in Hc, He. rewrite Hc, He. reflexivity.
Defined.

Lemma block_tip_event_agrees_with_queries_witness :
  exists t p,
    getLastBlockTime (H := demo) world1 = (Ret t, world1) /\
    getVerificationProgress (H := demo) world1 = (Ret p, world1) /\
    @ext demo
      (env (world_after
              (signal_emit (H := demo) NotifyBlockTip (false, block100))
              (world_after (handleNotifyBlockTip (H := demo) record_tip)
                 world1))) =
    [got_tip false 100 t p].
Proof.
  destruct (@block_tip_event_agrees_with_queries demo record_tip false
              block100 world1 eq_refl) as (t & p & Ht & Hp & He).
  exists t, p. exact (conj Ht (conj Hp He)).
Defined.

Lemma header_tip_event_agrees_with_getHeaderTip_witness :
  exists h t,
    getHeaderTip (H := demo) 0 0 world1 = (Ret (true, h, t), world1) /\
    @ext demo
      (env (world_after
              (signal_emit (H := demo) NotifyHeaderTip (true, block100))
              (world_after (handleNotifyHeaderTip (H := demo) record_tip)
                 world1))) =
    [got_tip true h t progress_0_999999].
Proof.
  destruct (@header_tip_event_agrees_with_getHeaderTip demo record_tip true
              block100 world1 0 0 eq_refl) as (h & t & Hq & He).
  exists h, t. exact (conj Hq He).
Defined.

Lemma MakeWallet_never_reuses_a_facade_witness :
  constructed (snd (MakeWallets (H := demo) [4; 5]%nat (env world_wallets)))
    !! 1%nat = Some (mkWalletImpl 5%nat).
Proof.
  destruct (@MakeWallet_never_reuses_a_facade demo [4; 5]%nat
              (env world_wallets)) as (_ & _ & _ & _ & _ & Hnew).
  exact (proj2 (Hnew 1%nat 5%nat 1%nat eq_refl eq_refl)).
Defined.
